(** * Habitability calculator: a shallow embedding and its properties

    The development follows [src/habitability_calculator.py].  The single
    function [calculate_habitability_score] takes a Python dictionary and
    returns a float.  The dictionary is a finite map from strings to Python
    values, floats are IEEE binary64 numbers (Rocq's primitive floats),
    Python integers are unbounded ([Z]), and a comparison between a value
    that is not a number and a number raises [TypeError]. *)

From Stdlib Require Import ZArith Floats.
From stdpp Require Import base option gmap strings.

Local Open Scope Z_scope.

(* Decimal literals such as 0.1 denote the nearest binary64 number, in
   Python as here. *)
Set Warnings "-inexact-float".

(** ** Python values *)

(** Numbers: an [int] or a [float]. *)
Inductive num : Type :=
  | NInt (z : Z)
  | NFloat (f : float).

(** The values a field of the dictionary may hold. *)
Inductive value : Type :=
  | VNum (n : num)
  | VStr (s : string)
  | VNone.

(** A computation either returns or raises [TypeError]. *)
Inductive result (A : Type) : Type :=
  | Ok (a : A)
  | TypeError.
Arguments Ok {A} a.
Arguments TypeError {A}.

(** Sequencing: an exception raised by [r] ends the computation. *)
Definition bind {A B : Type} (r : result A) (k : A -> result B) : result B :=
  match r with
  | Ok a => k a
  | TypeError => TypeError
  end.

Notation "'do' x <- r ; k" := (bind r (fun x => k))
  (at level 10, x name, r at level 100, k at level 200).

(** ** Comparisons *)

Module Cmp.

(** The integer [±m] of a finite float's mantissa. *)
Definition signed (s : bool) (m : positive) : Z :=
  if s then Z.neg m else Z.pos m.

(** [z < f], exactly, for an integer and a float: Python compares the
    two without rounding the integer. *)
Definition Z_lt_SF (z : Z) (f : spec_float) : bool :=
  match f with
  | S754_nan => false
  | S754_infinity s => negb s
  | S754_zero _ => z <? 0
  | S754_finite s m e =>
      if 0 <=? e then z <? signed s m * 2 ^ e
      else z * 2 ^ (- e) <? signed s m
  end.

(** [f < z], exactly. *)
Definition SF_lt_Z (f : spec_float) (z : Z) : bool :=
  match f with
  | S754_nan => false
  | S754_infinity s => s
  | S754_zero _ => 0 <? z
  | S754_finite s m e =>
      if 0 <=? e then signed s m * 2 ^ e <? z
      else signed s m <? z * 2 ^ (- e)
  end.

(** [a < b] on numbers. *)
Definition num_lt (a b : num) : bool :=
  match a, b with
  | NInt x, NInt y => x <? y
  | NFloat x, NFloat y => PrimFloat.ltb x y
  | NInt x, NFloat y => Z_lt_SF x (Prim2SF y)
  | NFloat x, NInt y => SF_lt_Z (Prim2SF x) y
  end.

(** [v < n] and [v > n] for a dictionary value and a numeric literal.
    A string or [None] on the left raises. *)
Definition py_lt (v : value) (n : num) : result bool :=
  match v with
  | VNum a => Ok (num_lt a n)
  | VStr _ | VNone => TypeError
  end.

Definition py_gt (v : value) (n : num) : result bool :=
  match v with
  | VNum a => Ok (num_lt n a)
  | VStr _ | VNone => TypeError
  end.

(** [v == s] for a string literal [s]; never raises. *)
Definition py_eq_str (v : value) (s : string) : bool :=
  match v with
  | VStr t => bool_decide (t = s)
  | VNum _ | VNone => false
  end.

End Cmp.

(** ** Float helpers *)

(** The float of an integer literal; [score -= 20] converts the [int] to a
    [float] before subtracting.  The conversion is the one of 63-bit
    unsigned integers, exact on the literals of the source (all below
    [2^53]). *)
Definition float_of_int (z : Z) : float := PrimFloat.of_uint63 (Uint63.of_Z z).

(** Python's two-argument [min] and [max]: the first argument is kept
    unless the second is strictly smaller (larger). *)
Definition py_min (a b : float) : float := if PrimFloat.ltb b a then b else a.
Definition py_max (a b : float) : float := if PrimFloat.ltb a b then b else a.

(** ** The dictionary *)

(** [planet_data.get(key, default)]. *)
Definition get (planet_data : gmap string value) (key : string) (dflt : value) : value :=
  default dflt (planet_data !! key).

(** ** The score *)

(** [a or b] on comparisons: [b] is evaluated only when [a] is false. *)
Definition py_or (a : result bool) (b : result bool) : result bool :=
  do c <- a; if c then Ok true else b.

Definition calculate_habitability_score (planet_data : gmap string value) : result float :=
  let score := 50%float in
  let temp := get planet_data "equilibrium_temperature" (VNum (NFloat 288)) in
  do c <- py_or (Cmp.py_lt temp (NInt 200)) (Cmp.py_gt temp (NInt 400));
  let score := if c then (score - float_of_int 20)%float else score in
  let radius := get planet_data "radius" (VNum (NFloat 1)) in
  do c <- py_or (Cmp.py_lt radius (NFloat 0.5)) (Cmp.py_gt radius (NFloat 2.5));
  let score := if c then (score - float_of_int 15)%float else score in
  let mass := get planet_data "mass" (VNum (NFloat 1)) in
  do c <- py_or (Cmp.py_lt mass (NFloat 0.1)) (Cmp.py_gt mass (NInt 10));
  let score := if c then (score - float_of_int 10)%float else score in
  let stellar_type := get planet_data "stellar_type" (VStr "G") in
  if Cmp.py_eq_str stellar_type "flare" then Ok 0%float
  else
    let luminosity := get planet_data "stellar_luminosity" (VNum (NFloat 1)) in
    do c <- py_or (Cmp.py_lt luminosity (NFloat 0.1)) (Cmp.py_gt luminosity (NInt 10));
    let score := if c then (score - float_of_int 5)%float else score in
    let score := py_max 0 (py_min 100 score) in
    Ok score.

(** ** Input records *)

(** A field is numeric when it is absent or holds a number, and textual
    when it is absent or holds a string. *)
Definition numeric_field (d : gmap string value) (key : string) : bool :=
  match d !! key with
  | Some (VNum _) | None => true
  | Some (VStr _) | Some VNone => false
  end.

Definition string_field (d : gmap string value) (key : string) : bool :=
  match d !! key with
  | Some (VStr _) | None => true
  | Some (VNum _) | Some VNone => false
  end.

(** The records of the data model: each of the six fields, when present,
    holds a value of its documented type. *)
Definition well_typed (d : gmap string value) : bool :=
  string_field d "stellar_type"
  && numeric_field d "equilibrium_temperature"
  && numeric_field d "radius"
  && numeric_field d "mass"
  && numeric_field d "orbital_period"
  && numeric_field d "stellar_luminosity".

(** The number held by a numeric field, or its default. *)
Definition num_field (d : gmap string value) (key : string) (dflt : num) : num :=
  match d !! key with
  | Some (VNum n) => n
  | _ => dflt
  end.

(** ** The score as the specification words it *)

Module Spec.

(** [p] if [x < lo] or [x > hi], else [0]. *)
Definition penalty (x lo hi : num) (p : Z) : float :=
  if Cmp.num_lt x lo || Cmp.num_lt hi x then float_of_int p else 0%float.

Definition p_temp (d : gmap string value) : float :=
  penalty (num_field d "equilibrium_temperature" (NFloat 288)) (NInt 200) (NInt 400) 20.
Definition p_radius (d : gmap string value) : float :=
  penalty (num_field d "radius" (NFloat 1)) (NFloat 0.5) (NFloat 2.5) 15.
Definition p_mass (d : gmap string value) : float :=
  penalty (num_field d "mass" (NFloat 1)) (NFloat 0.1) (NInt 10) 10.
Definition p_lum (d : gmap string value) : float :=
  penalty (num_field d "stellar_luminosity" (NFloat 1)) (NFloat 0.1) (NInt 10) 5.

(** [max(0.0, min(100.0, 50.0 - p_temp - p_radius - p_mass - p_lum))]. *)
Definition score (d : gmap string value) : float :=
  py_max 0 (py_min 100 (50 - p_temp d - p_radius d - p_mass d - p_lum d)%float).

(** The evaluator with its clamping step removed. *)
Definition evaluate_noclamp (planet_data : gmap string value) : result float :=
  let score := 50%float in
  let temp := get planet_data "equilibrium_temperature" (VNum (NFloat 288)) in
  do c <- py_or (Cmp.py_lt temp (NInt 200)) (Cmp.py_gt temp (NInt 400));
  let score := if c then (score - float_of_int 20)%float else score in
  let radius := get planet_data "radius" (VNum (NFloat 1)) in
  do c <- py_or (Cmp.py_lt radius (NFloat 0.5)) (Cmp.py_gt radius (NFloat 2.5));
  let score := if c then (score - float_of_int 15)%float else score in
  let mass := get planet_data "mass" (VNum (NFloat 1)) in
  do c <- py_or (Cmp.py_lt mass (NFloat 0.1)) (Cmp.py_gt mass (NInt 10));
  let score := if c then (score - float_of_int 10)%float else score in
  let stellar_type := get planet_data "stellar_type" (VStr "G") in
  if Cmp.py_eq_str stellar_type "flare" then Ok 0%float
  else
    let luminosity := get planet_data "stellar_luminosity" (VNum (NFloat 1)) in
    do c <- py_or (Cmp.py_lt luminosity (NFloat 0.1)) (Cmp.py_gt luminosity (NInt 10));
    let score := if c then (score - float_of_int 5)%float else score in
    Ok score.

End Spec.

(** The final step of the evaluator. *)
Definition clamp (score : float) : float := py_max 0 (py_min 100 score).

(** The score after the four checks, given which of them fired. *)
Definition penalised (ct cr cm cl : bool) : float :=
  let score := 50%float in
  let score := if ct then (score - float_of_int 20)%float else score in
  let score := if cr then (score - float_of_int 15)%float else score in
  let score := if cm then (score - float_of_int 10)%float else score in
  if cl then (score - float_of_int 5)%float else score.

(** The closed interval [[0.0, 100.0]] on floats. *)
Definition in_range (v : float) : bool :=
  PrimFloat.leb 0 v && PrimFloat.leb v 100.

(** ** Sample records *)

Definition flare_record : gmap string value :=
  <["stellar_type" := VStr "flare"]>
  (<["equilibrium_temperature" := VNum (NFloat 288)]>
  (<["radius" := VNum (NFloat 1)]>
  (<["mass" := VNum (NFloat 1)]>
  (<["stellar_luminosity" := VNum (NFloat 1)]> ∅)))).

Definition extreme_record : gmap string value :=
  <["equilibrium_temperature" := VNum (NInt 500)]>
  (<["radius" := VNum (NInt 5)]>
  (<["mass" := VNum (NInt 20)]>
  (<["stellar_luminosity" := VNum (NInt 50)]> ∅))).

(** A record with one field set. *)
Definition only (key : string) (n : num) : gmap string value := {[ key := VNum n ]}.

(** ** The four checks, tabulated *)

(** [x < lo or x > hi]. *)
Definition outside (x lo hi : num) : bool :=
  Cmp.num_lt x lo || Cmp.num_lt hi x.

(** One check of the source: the key it reads, the default of that key,
    the two bounds and the amount deducted. *)
Record check : Type := MkCheck {
  ck_key : string;
  ck_default : num;
  ck_lo : num;
  ck_hi : num;
  ck_cost : Z
}.

Definition temp_check : check :=
  MkCheck "equilibrium_temperature" (NFloat 288) (NInt 200) (NInt 400) 20.
Definition radius_check : check :=
  MkCheck "radius" (NFloat 1) (NFloat 0.5) (NFloat 2.5) 15.
Definition mass_check : check :=
  MkCheck "mass" (NFloat 1) (NFloat 0.1) (NInt 10) 10.
Definition lum_check : check :=
  MkCheck "stellar_luminosity" (NFloat 1) (NFloat 0.1) (NInt 10) 5.

Definition checks : list check :=
  [temp_check; radius_check; mass_check; lum_check].

(** The condition of a check as the source evaluates it. *)
Definition run_check (d : gmap string value) (c : check) : result bool :=
  let x := get d (ck_key c) (VNum (ck_default c)) in
  py_or (Cmp.py_lt x (ck_lo c)) (Cmp.py_gt x (ck_hi c)).

(** Whether the number of a field, or its default, is out of bounds. *)
Definition field_outside (d : gmap string value) (c : check) : bool :=
  outside (num_field d (ck_key c) (ck_default c)) (ck_lo c) (ck_hi c).

(** The flare test of the source. *)
Definition reads_flare (d : gmap string value) : bool :=
  Cmp.py_eq_str (get d "stellar_type" (VStr "G")) "flare".

(** The keys the source looks up, each with the default it passes to
    [get]. *)
Definition defaults : list (string * value) :=
  [ ("equilibrium_temperature", VNum (NFloat 288));
    ("radius", VNum (NFloat 1));
    ("mass", VNum (NFloat 1));
    ("stellar_type", VStr "G");
    ("stellar_luminosity", VNum (NFloat 1)) ].

Definition read_keys : list string := defaults.*1.

(** The deductions of the checks a record fails, summed as integers. *)
Definition deductions (d : gmap string value) : Z :=
  foldr (fun c acc => ck_cost c + acc) 0 (filter (fun c => field_outside d c = true) checks).

(** Records that reach given scores: the fields listed are out of bounds. *)
Definition hot : gmap string value -> gmap string value :=
  <["equilibrium_temperature" := VNum (NInt 500)]>.
Definition giant : gmap string value -> gmap string value :=
  <["radius" := VNum (NInt 5)]>.
Definition heavy : gmap string value -> gmap string value :=
  <["mass" := VNum (NInt 20)]>.
Definition bright : gmap string value -> gmap string value :=
  <["stellar_luminosity" := VNum (NInt 50)]>.

(** * Properties *)

Example float_of_int_small :
  map float_of_int [0; 5; 10; 15; 20; 25; 30; 35; 40; 45; 50]
  = [0; 5; 10; 15; 20; 25; 30; 35; 40; 45; 50]%float.
Proof. vm_compute. reflexivity. Qed.

(** Integers against floats: no rounding of the integer. *)
Example int_below_half :
  map (fun z => Cmp.num_lt (NInt z) (NFloat 0.5)) [-1; 0; 1] = [true; true; false].
Proof. vm_compute. reflexivity. Qed.

Example int_above_two_and_a_half :
  map (fun z => Cmp.num_lt (NFloat 2.5) (NInt z)) [2; 3] = [false; true].
Proof. vm_compute. reflexivity. Qed.

Example int_beyond_double_precision :
  Cmp.num_lt (NFloat 9007199254740992) (NInt (2 ^ 53 + 1)) = true
  /\ Cmp.num_lt (NInt (2 ^ 53 + 1)) (NFloat 9007199254740992) = false
  /\ Cmp.num_lt (NInt 400) (NInt (10 ^ 400)) = true.
Proof. vm_compute. auto. Qed.

Example nan_and_infinity :
  Cmp.num_lt (NFloat nan) (NInt 200) = false
  /\ Cmp.num_lt (NInt 400) (NFloat nan) = false
  /\ Cmp.num_lt (NInt 400) (NFloat infinity) = true
  /\ Cmp.num_lt (NFloat neg_infinity) (NInt 200) = true.
Proof. vm_compute. auto. Qed.

Example evaluate_flare_record : calculate_habitability_score flare_record = Ok 0%float.
Proof. vm_compute. reflexivity. Qed.

Example evaluate_extreme_record : calculate_habitability_score extreme_record = Ok 0%float.
Proof. vm_compute. reflexivity. Qed.

Example evaluate_cold :
  calculate_habitability_score (only "equilibrium_temperature" (NFloat 199.999))
  = Ok 30%float.
Proof. vm_compute. reflexivity. Qed.

Example evaluate_tenth : calculate_habitability_score (only "mass" (NFloat 0.1)) = Ok 50%float.
Proof. vm_compute. reflexivity. Qed.

Example evaluate_int_zero_radius :
  calculate_habitability_score (only "radius" (NInt 0)) = Ok 35%float.
Proof. vm_compute. reflexivity. Qed.

Example evaluate_nan : calculate_habitability_score (only "radius" (NFloat nan)) = Ok 50%float.
Proof. vm_compute. reflexivity. Qed.

Example evaluate_string_mass :
  calculate_habitability_score {[ "mass" := VStr "heavy" ]} = TypeError.
Proof. vm_compute. reflexivity. Qed.

(** ** Auxiliary facts *)

Lemma py_or_num (n lo hi : num) :
  py_or (Cmp.py_lt (VNum n) lo) (Cmp.py_gt (VNum n) hi)
  = Ok (Cmp.num_lt n lo || Cmp.num_lt hi n).
Proof. unfold py_or; cbn. now destruct (Cmp.num_lt n lo). Qed.

Lemma get_numeric (d : gmap string value) (key : string) (dflt : num) :
  numeric_field d key = true ->
  get d key (VNum dflt) = VNum (num_field d key dflt).
Proof.
  unfold numeric_field, get, num_field.
  destruct (d !! key) as [[n|s|]|]; cbn; congruence.
Qed.

Lemma flare_test (d : gmap string value) :
  Cmp.py_eq_str (get d "stellar_type" (VStr "G")) "flare" = true
  <-> d !! "stellar_type" = Some (VStr "flare").
Proof.
  unfold get. destruct (d !! "stellar_type") as [[n|s|]|]; cbn; split; try discriminate.
  - intros H. apply bool_decide_eq_true in H. now subst.
  - intros [= ->]. reflexivity.
Qed.

Lemma well_typed_fields (d : gmap string value) :
  well_typed d = true ->
  numeric_field d "equilibrium_temperature" = true
  /\ numeric_field d "radius" = true
  /\ numeric_field d "mass" = true
  /\ numeric_field d "stellar_luminosity" = true.
Proof.
  unfold well_typed. intros H.
  repeat (apply andb_prop in H; destruct H as [H ?]). auto.
Qed.

(** The sixteen scores and their clamped values. *)
Lemma clamp_penalised (ct cr cm cl : bool) :
  clamp (penalised ct cr cm cl) = penalised ct cr cm cl.
Proof. destruct ct, cr, cm, cl; vm_compute; reflexivity. Qed.

Lemma penalised_multiple (ct cr cm cl : bool) :
  exists k : Z, 0 <= k <= 10 /\ penalised ct cr cm cl = float_of_int (5 * k).
Proof.
  destruct ct, cr, cm, cl;
    [ exists 0 | exists 1 | exists 2 | exists 3 | exists 3 | exists 4 | exists 5 | exists 6
    | exists 4 | exists 5 | exists 6 | exists 7 | exists 7 | exists 8 | exists 9 | exists 10 ];
    (split; [lia | vm_compute; reflexivity]).
Qed.

(** Whatever the record, an evaluation that returns went through the
    flare exit or through the four checks. *)
Lemma evaluate_inv (d : gmap string value) (v : float) :
  calculate_habitability_score d = Ok v ->
  v = 0%float \/ exists ct cr cm cl, v = clamp (penalised ct cr cm cl).
Proof.
  unfold calculate_habitability_score.
  destruct (py_or (Cmp.py_lt (get d "equilibrium_temperature" _) _) _) as [ct|]; [|discriminate].
  destruct (py_or (Cmp.py_lt (get d "radius" _) _) _) as [cr|]; [|discriminate].
  destruct (py_or (Cmp.py_lt (get d "mass" _) _) _) as [cm|]; [|discriminate].
  cbn [bind].
  destruct (Cmp.py_eq_str _ _).
  - intros [= <-]. now left.
  - destruct (py_or (Cmp.py_lt (get d "stellar_luminosity" _) _) _) as [cl|]; [|discriminate].
    cbn [bind]. intros [= <-]. right. exists ct, cr, cm, cl. reflexivity.
Qed.

(** On a record whose numeric fields are numbers, the evaluator is the
    flare exit followed by the four checks and the clamp. *)
Lemma evaluate_numeric (d : gmap string value) :
  numeric_field d "equilibrium_temperature" = true ->
  numeric_field d "radius" = true ->
  numeric_field d "mass" = true ->
  numeric_field d "stellar_luminosity" = true ->
  calculate_habitability_score d =
    if Cmp.py_eq_str (get d "stellar_type" (VStr "G")) "flare" then Ok 0%float
    else
      let t := num_field d "equilibrium_temperature" (NFloat 288) in
      let r := num_field d "radius" (NFloat 1) in
      let m := num_field d "mass" (NFloat 1) in
      let l := num_field d "stellar_luminosity" (NFloat 1) in
      Ok (clamp (penalised
            (Cmp.num_lt t (NInt 200) || Cmp.num_lt (NInt 400) t)
            (Cmp.num_lt r (NFloat 0.5) || Cmp.num_lt (NFloat 2.5) r)
            (Cmp.num_lt m (NFloat 0.1) || Cmp.num_lt (NInt 10) m)
            (Cmp.num_lt l (NFloat 0.1) || Cmp.num_lt (NInt 10) l))).
Proof.
  intros Ht Hr Hm Hl. unfold calculate_habitability_score.
  rewrite (get_numeric _ _ _ Ht), (get_numeric _ _ _ Hr),
          (get_numeric _ _ _ Hm), (get_numeric _ _ _ Hl).
  rewrite !py_or_num. cbn [bind].
  destruct (Cmp.py_eq_str _ _); reflexivity.
Qed.

(** ** The claims *)

(** C1. On a record of the data model whose [stellar_type] is not the
    string ["flare"], the evaluator returns
    [max(0.0, min(100.0, 50.0 - p_temp - p_radius - p_mass - p_lum))],
    each penalty being decided by its own field (or that field's default)
    alone. *)
Theorem score_formula (d : gmap string value) :
  well_typed d = true ->
  d !! "stellar_type" <> Some (VStr "flare") ->
  calculate_habitability_score d = Ok (Spec.score d).
Proof.
  intros Hwt Hnf.
  destruct (well_typed_fields d Hwt) as (Ht & Hr & Hm & Hl).
  rewrite (evaluate_numeric d Ht Hr Hm Hl).
  destruct (Cmp.py_eq_str _ _) eqn:E.
  - apply flare_test in E. contradiction.
  - cbv zeta. unfold Spec.score, Spec.p_temp, Spec.p_radius, Spec.p_mass, Spec.p_lum,
      Spec.penalty.
    destruct (_ || _), (_ || _), (_ || _), (_ || _); vm_compute; reflexivity.
Qed.

Lemma score_formula_witness :
  calculate_habitability_score (<["stellar_type" := VStr "M"]> extreme_record)
  = Ok (Spec.score (<["stellar_type" := VStr "M"]> extreme_record)).
Proof.
  apply score_formula.
  - vm_compute. reflexivity.
  - vm_compute. discriminate.
Defined.

(** C2. Every value the evaluator returns lies in the closed interval
    [[0.0, 100.0]]. *)
Theorem score_in_range (d : gmap string value) (v : float) :
  calculate_habitability_score d = Ok v -> in_range v = true.
Proof.
  intros H. destruct (evaluate_inv d v H) as [-> | (ct & cr & cm & cl & ->)].
  - vm_compute. reflexivity.
  - destruct ct, cr, cm, cl; vm_compute; reflexivity.
Qed.

Lemma score_in_range_witness : in_range 50 = true.
Proof. apply (score_in_range ∅). vm_compute. reflexivity. Defined.

(** C3. On a record whose [stellar_type] is the string ["flare"] the
    evaluator returns [0.0], whatever numbers the temperature, radius and
    mass fields hold and whatever the luminosity and orbital period fields
    hold; the evaluator without the clamp returns the same. *)
Theorem flare_override (d : gmap string value) :
  d !! "stellar_type" = Some (VStr "flare") ->
  numeric_field d "equilibrium_temperature" = true ->
  numeric_field d "radius" = true ->
  numeric_field d "mass" = true ->
  calculate_habitability_score d = Ok 0%float /\ Spec.evaluate_noclamp d = Ok 0%float.
Proof.
  intros Hf Ht Hr Hm. apply flare_test in Hf.
  unfold calculate_habitability_score, Spec.evaluate_noclamp.
  rewrite (get_numeric _ _ _ Ht), (get_numeric _ _ _ Hr), (get_numeric _ _ _ Hm).
  rewrite !py_or_num. cbn [bind]. rewrite Hf. split; reflexivity.
Qed.

Lemma flare_override_witness :
  let d := <["stellar_luminosity" := VStr "unknown"]>
           (<["mass" := VNum (NInt (-3))]> flare_record) in
  calculate_habitability_score d = Ok 0%float /\ Spec.evaluate_noclamp d = Ok 0%float.
Proof. apply flare_override; vm_compute; reflexivity. Defined.

(** C4. The comparisons are strict: a record that sets one numeric field
    to a threshold (200 or 400 for the temperature, 0.5 or 2.5 for the
    radius, 0.1 or 10 for the mass and for the luminosity), given as a float
    or, where the threshold is a whole number, as an int, scores [50.0];
    a temperature of 199.999 scores [30.0]. *)
Theorem thresholds_strict :
  Forall (fun d => calculate_habitability_score d = Ok 50%float)
    [ only "equilibrium_temperature" (NFloat 200);
      only "equilibrium_temperature" (NInt 200);
      only "equilibrium_temperature" (NFloat 400);
      only "equilibrium_temperature" (NInt 400);
      only "radius" (NFloat 0.5);
      only "radius" (NFloat 2.5);
      only "mass" (NFloat 0.1);
      only "mass" (NFloat 10);
      only "mass" (NInt 10);
      only "stellar_luminosity" (NFloat 0.1);
      only "stellar_luminosity" (NFloat 10);
      only "stellar_luminosity" (NInt 10) ]
  /\ calculate_habitability_score (only "equilibrium_temperature" (NFloat 199.999)) = Ok 30%float.
Proof.
  split; [repeat constructor|]; vm_compute; reflexivity.
Qed.

(** The evaluator reads five keys only. *)
Lemma evaluate_reads (d1 d2 : gmap string value) :
  d1 !! "equilibrium_temperature" = d2 !! "equilibrium_temperature" ->
  d1 !! "radius" = d2 !! "radius" ->
  d1 !! "mass" = d2 !! "mass" ->
  d1 !! "stellar_type" = d2 !! "stellar_type" ->
  d1 !! "stellar_luminosity" = d2 !! "stellar_luminosity" ->
  calculate_habitability_score d1 = calculate_habitability_score d2.
Proof.
  intros Ht Hr Hm Hs Hl. unfold calculate_habitability_score, get.
  rewrite Ht, Hr, Hm, Hs, Hl. reflexivity.
Qed.

(** C5. Two records that agree on every key other than ["orbital_period"]
    evaluate alike, be it to a score or to an error. *)
Theorem orbital_period_ignored (d1 d2 : gmap string value) :
  (forall key : string, key <> "orbital_period" -> d1 !! key = d2 !! key) ->
  calculate_habitability_score d1 = calculate_habitability_score d2.
Proof.
  intros H. apply evaluate_reads; apply H; discriminate.
Qed.

Lemma orbital_period_ignored_witness :
  calculate_habitability_score (<["orbital_period" := VNum (NFloat 365.25)]> extreme_record)
  = calculate_habitability_score (<["orbital_period" := VStr "a year"]> extreme_record).
Proof.
  apply orbital_period_ignored. intros key Hkey.
  rewrite !lookup_insert_ne by congruence. reflexivity.
Defined.

(** C6. The empty record scores [50.0]. *)
Theorem default_record : calculate_habitability_score ∅ = Ok 50%float.
Proof. vm_compute. reflexivity. Qed.

(** C7. The record with temperature 500, radius 5, mass 20 and luminosity
    50 scores [0.0], and the score before the clamp is [0.0] already. *)
Theorem additive_penalties :
  calculate_habitability_score extreme_record = Ok 0%float
  /\ Spec.evaluate_noclamp extreme_record = Ok 0%float
  /\ penalised true true true true = (50 - 20 - 15 - 10 - 5)%float.
Proof. repeat split; vm_compute; reflexivity. Qed.

(** C8. On a record of the data model the evaluator returns a score and
    raises nothing: absent fields take their defaults and no number is
    rejected. *)
Theorem evaluate_total (d : gmap string value) :
  well_typed d = true -> exists v : float, calculate_habitability_score d = Ok v.
Proof.
  intros Hwt. destruct (well_typed_fields d Hwt) as (Ht & Hr & Hm & Hl).
  rewrite (evaluate_numeric d Ht Hr Hm Hl).
  destruct (Cmp.py_eq_str _ _); eexists; reflexivity.
Qed.

Lemma evaluate_total_witness :
  exists v : float, calculate_habitability_score (only "mass" (NFloat (-4.5))) = Ok v.
Proof. apply evaluate_total. vm_compute. reflexivity. Defined.

(** C9. Every value the evaluator returns is [5 * k] for a whole number
    [k] between 0 and 10: a multiple of five between [0.0] and [50.0]. *)
Theorem score_multiple_of_five (d : gmap string value) (v : float) :
  calculate_habitability_score d = Ok v ->
  exists k : Z, 0 <= k <= 10 /\ v = float_of_int (5 * k).
Proof.
  intros H. destruct (evaluate_inv d v H) as [-> | (ct & cr & cm & cl & ->)].
  - exists 0. split; [lia | vm_compute; reflexivity].
  - rewrite clamp_penalised. apply penalised_multiple.
Qed.

Lemma score_multiple_of_five_witness :
  exists k : Z, 0 <= k <= 10 /\ 30%float = float_of_int (5 * k).
Proof.
  apply (score_multiple_of_five (only "equilibrium_temperature" (NFloat 199.999))).
  vm_compute. reflexivity.
Defined.

(** C10. The clamp changes nothing: the evaluator without it agrees with
    the evaluator on every record, ill-typed ones included. *)
Theorem clamp_is_noop (d : gmap string value) :
  Spec.evaluate_noclamp d = calculate_habitability_score d.
Proof.
  unfold calculate_habitability_score, Spec.evaluate_noclamp.
  destruct (py_or (Cmp.py_lt (get d "equilibrium_temperature" _) _) _) as [ct|]; [|reflexivity].
  destruct (py_or (Cmp.py_lt (get d "radius" _) _) _) as [cr|]; [|reflexivity].
  destruct (py_or (Cmp.py_lt (get d "mass" _) _) _) as [cm|]; [|reflexivity].
  cbn [bind]. destruct (Cmp.py_eq_str _ _); [reflexivity|].
  destruct (py_or (Cmp.py_lt (get d "stellar_luminosity" _) _) _) as [cl|]; [|reflexivity].
  cbn [bind]. f_equal. symmetry. apply (clamp_penalised ct cr cm cl).
Qed.

(** ** Further properties of the evaluator *)

(** The evaluator in terms of its four checks and its flare test. *)
Lemma evaluate_checks (d : gmap string value) :
  calculate_habitability_score d =
    do ct <- run_check d temp_check;
    do cr <- run_check d radius_check;
    do cm <- run_check d mass_check;
    if reads_flare d then Ok 0%float
    else do cl <- run_check d lum_check; Ok (clamp (penalised ct cr cm cl)).
Proof. reflexivity. Qed.

(** A check on a numeric field returns, on any other value it raises. *)
Lemma run_check_numeric (d : gmap string value) (c : check) :
  numeric_field d (ck_key c) = true ->
  run_check d c = Ok (field_outside d c).
Proof.
  intros H. unfold run_check, field_outside, outside.
  rewrite (get_numeric _ _ _ H). cbv zeta. apply py_or_num.
Qed.

Lemma run_check_raises (d : gmap string value) (c : check) :
  numeric_field d (ck_key c) = false -> run_check d c = TypeError.
Proof.
  unfold numeric_field, run_check, get.
  destruct (d !! ck_key c) as [[n|s|]|]; cbn; congruence.
Qed.

Lemma reads_flare_false (d : gmap string value) :
  reads_flare d = false <-> d !! "stellar_type" <> Some (VStr "flare").
Proof.
  unfold reads_flare. rewrite <- flare_test.
  destruct (Cmp.py_eq_str _ _); split; congruence.
Qed.

(** X1. The evaluator raises exactly when the temperature, the radius or
    the mass holds something that is not a number, or when the record is
    not a flare star and the luminosity holds something that is not a
    number. *)
Theorem raises_iff (d : gmap string value) :
  calculate_habitability_score d = TypeError <->
  numeric_field d "equilibrium_temperature" = false
  \/ numeric_field d "radius" = false
  \/ numeric_field d "mass" = false
  \/ (d !! "stellar_type" <> Some (VStr "flare")
      /\ numeric_field d "stellar_luminosity" = false).
Proof.
  rewrite evaluate_checks, <- reads_flare_false.
  destruct (numeric_field d "equilibrium_temperature") eqn:Ht;
    [rewrite (run_check_numeric d temp_check Ht)
    |rewrite (run_check_raises d temp_check Ht); cbn; tauto].
  destruct (numeric_field d "radius") eqn:Hr;
    [rewrite (run_check_numeric d radius_check Hr)
    |rewrite (run_check_raises d radius_check Hr); cbn; tauto].
  destruct (numeric_field d "mass") eqn:Hm;
    [rewrite (run_check_numeric d mass_check Hm)
    |rewrite (run_check_raises d mass_check Hm); cbn; tauto].
  cbn [bind]. destruct (reads_flare d).
  - split; [discriminate|]. intros [?|[?|[?|[? _]]]]; discriminate.
  - destruct (numeric_field d "stellar_luminosity") eqn:Hl;
      [rewrite (run_check_numeric d lum_check Hl)
      |rewrite (run_check_raises d lum_check Hl); cbn; tauto].
    cbn [bind]. split; [discriminate|]. intros [?|[?|[?|[_ ?]]]]; discriminate.
Qed.

(** X2. A key the source never looks up has no influence: setting it to
    any value, or removing it, leaves the result as it is. *)
Theorem unread_key_ignored (d : gmap string value) (k : string) (v : value) :
  k ∉ read_keys ->
  calculate_habitability_score (<[k := v]> d) = calculate_habitability_score d
  /\ calculate_habitability_score (delete k d) = calculate_habitability_score d.
Proof.
  intros Hk.
  assert (Hne : forall k', k' ∈ read_keys -> k <> k') by (intros k' Hin ->; tauto).
  split; apply evaluate_reads;
    first [apply lookup_insert_ne | apply lookup_delete_ne];
    apply Hne; unfold read_keys; cbn; set_solver.
Qed.

Lemma unread_key_ignored_witness :
  calculate_habitability_score (<["discovery_year" := VNum (NInt 2016)]> flare_record)
  = calculate_habitability_score flare_record
  /\ calculate_habitability_score (delete "discovery_year" flare_record)
     = calculate_habitability_score flare_record.
Proof.
  apply unread_key_ignored. unfold read_keys. cbn.
  rewrite !not_elem_of_cons. repeat split; try discriminate. apply not_elem_of_nil.
Defined.

(** What [get] returns once a key is set or removed. *)
Lemma get_insert (d : gmap string value) (k k' : string) (v dv : value) :
  get (<[k := v]> d) k' dv = if decide (k = k') then v else get d k' dv.
Proof. unfold get. rewrite lookup_insert. now case_decide. Qed.

Lemma get_delete (d : gmap string value) (k k' : string) (dv : value) :
  get (delete k d) k' dv = if decide (k = k') then dv else get d k' dv.
Proof. unfold get. rewrite lookup_delete. now case_decide. Qed.

(** X3. A field set to the default of its key is as good as absent: for
    each key the source reads, writing the default the source passes to
    [get] gives the result of the record without that key. *)
Theorem explicit_default (d : gmap string value) (k : string) (dv : value) :
  (k, dv) ∈ defaults ->
  calculate_habitability_score (<[k := dv]> d)
  = calculate_habitability_score (delete k d).
Proof.
  unfold defaults. rewrite !elem_of_cons, elem_of_nil.
  intros [H|[H|[H|[H|[H|[]]]]]]; injection H as -> ->;
    unfold calculate_habitability_score;
    rewrite !get_insert, !get_delete; reflexivity.
Qed.

Lemma explicit_default_witness :
  calculate_habitability_score (<["radius" := VNum (NFloat 1)]> extreme_record)
  = calculate_habitability_score (delete "radius" extreme_record).
Proof. apply explicit_default. unfold defaults. set_solver. Defined.

(** X4. A NaN triggers no penalty: a numeric field set to NaN gives the
    result of the record without that field. *)
Theorem nan_not_penalised (d : gmap string value) (c : check) :
  c ∈ checks ->
  calculate_habitability_score (<[ck_key c := VNum (NFloat nan)]> d)
  = calculate_habitability_score (delete (ck_key c) d).
Proof.
  unfold checks. rewrite !elem_of_cons, elem_of_nil.
  intros [->|[->|[->|[->|[]]]]];
    unfold calculate_habitability_score; cbn [ck_key temp_check radius_check mass_check lum_check];
    rewrite !get_insert, !get_delete; reflexivity.
Qed.

Lemma nan_not_penalised_witness :
  calculate_habitability_score (<["mass" := VNum (NFloat nan)]> extreme_record)
  = calculate_habitability_score (delete "mass" extreme_record).
Proof. apply (nan_not_penalised extreme_record mass_check). unfold checks. set_solver. Defined.

Lemma get_insert_eq (d : gmap string value) (k : string) (v dv : value) :
  get (<[k := v]> d) k dv = v.
Proof. rewrite get_insert. now rewrite decide_True. Qed.

Lemma get_insert_ne (d : gmap string value) (k k' : string) (v dv : value) :
  k <> k' -> get (<[k := v]> d) k' dv = get d k' dv.
Proof. intros H. rewrite get_insert. now rewrite decide_False. Qed.

(** Two results that differ as binary64 numbers differ. *)
Ltac float_clash H :=
  apply (f_equal (fun r => match r with Ok v => Prim2SF v | TypeError => S754_nan end)) in H;
  vm_compute in H; discriminate H.

Ltac run_inserted Hx Hy Hv :=
  unfold calculate_habitability_score in *;
  cbn [ck_key ck_lo ck_hi ck_cost temp_check radius_check mass_check lum_check] in *;
  rewrite ?get_insert_eq, ?get_insert_ne in * by discriminate;
  rewrite !py_or_num in *;
  unfold outside in Hx, Hy; rewrite Hx; rewrite Hy in Hv.

(** X5. Each penalty costs its own amount whatever the other fields hold:
    on a record that is not a flare star, replacing an in-bounds number of a
    checked field by an out-of-bounds one lowers the score by exactly the
    deduction of that check (20, 15, 10 or 5). *)
Theorem penalty_cost (d : gmap string value) (c : check) (x y : num) (v : float) :
  c ∈ checks ->
  d !! "stellar_type" <> Some (VStr "flare") ->
  outside x (ck_lo c) (ck_hi c) = true ->
  outside y (ck_lo c) (ck_hi c) = false ->
  calculate_habitability_score (<[ck_key c := VNum y]> d) = Ok v ->
  calculate_habitability_score (<[ck_key c := VNum x]> d)
  = Ok (v - float_of_int (ck_cost c))%float.
Proof.
  unfold checks. rewrite !elem_of_cons, elem_of_nil.
  intros Hc Hnf Hx Hy Hv. rewrite <- flare_test in Hnf.
  destruct Hc as [->|[->|[->|[->|[]]]]]; run_inserted Hx Hy Hv;
    repeat match type of Hv with
           | context [py_or ?a ?b] => destruct (py_or a b) as [[]|]
           end;
    cbn [bind] in *; try discriminate Hv;
    destruct (Cmp.py_eq_str _ _); try (exfalso; now apply Hnf);
    cbn [bind] in *; try discriminate Hv;
    repeat match type of Hv with
           | context [py_or ?a ?b] => destruct (py_or a b) as [[]|]
           end;
    cbn [bind] in *; try discriminate Hv;
    injection Hv as <-; vm_compute; reflexivity.
Qed.

Lemma penalty_cost_witness :
  calculate_habitability_score (<["radius" := VNum (NInt 0)]> (hot ∅))
  = Ok (30 - float_of_int 15)%float.
Proof.
  apply (penalty_cost (hot ∅) radius_check (NInt 0) (NFloat 2.5)).
  - unfold checks. set_solver.
  - vm_compute. discriminate.
  - vm_compute. reflexivity.
  - vm_compute. reflexivity.
  - vm_compute. reflexivity.
Defined.

(** On a record of the data model the four checks return. *)
Lemma evaluate_well_typed (d : gmap string value) :
  well_typed d = true ->
  calculate_habitability_score d =
    if reads_flare d then Ok 0%float
    else Ok (clamp (penalised (field_outside d temp_check) (field_outside d radius_check)
                              (field_outside d mass_check) (field_outside d lum_check))).
Proof.
  intros Hwt. destruct (well_typed_fields d Hwt) as (Ht & Hr & Hm & Hl).
  rewrite evaluate_checks.
  rewrite (run_check_numeric d temp_check Ht), (run_check_numeric d radius_check Hr),
          (run_check_numeric d mass_check Hm), (run_check_numeric d lum_check Hl).
  reflexivity.
Qed.

(** X6. On a record of the data model the score is [50.0] exactly when the
    star is not a flare star and no checked field is out of bounds. *)
Theorem full_score_iff (d : gmap string value) :
  well_typed d = true ->
  calculate_habitability_score d = Ok 50%float <->
  d !! "stellar_type" <> Some (VStr "flare")
  /\ Forall (fun c => field_outside d c = false) checks.
Proof.
  intros Hwt. rewrite (evaluate_well_typed d Hwt), <- reads_flare_false.
  unfold checks. rewrite !Forall_cons, Forall_nil.
  destruct (reads_flare d).
  - split; [intros H; float_clash H | intros [? _]; discriminate].
  - destruct (field_outside d temp_check), (field_outside d radius_check),
             (field_outside d mass_check), (field_outside d lum_check);
      (split; [intros H; first [float_clash H | tauto] | intros (_ & ? & ? & ? & ? & _)]);
      first [discriminate | vm_compute; reflexivity].
Qed.

Lemma full_score_iff_witness :
  calculate_habitability_score (only "mass" (NFloat 0.1)) = Ok 50%float <->
  only "mass" (NFloat 0.1) !! "stellar_type" <> Some (VStr "flare")
  /\ Forall (fun c => field_outside (only "mass" (NFloat 0.1)) c = false) checks.
Proof. apply full_score_iff. vm_compute. reflexivity. Defined.

(** X7. On a record of the data model the score is [0.0] exactly when the
    star is a flare star or all four checked fields are out of bounds. *)
Theorem zero_score_iff (d : gmap string value) :
  well_typed d = true ->
  calculate_habitability_score d = Ok 0%float <->
  d !! "stellar_type" = Some (VStr "flare")
  \/ Forall (fun c => field_outside d c = true) checks.
Proof.
  intros Hwt. rewrite (evaluate_well_typed d Hwt), <- flare_test.
  fold (reads_flare d). unfold checks. rewrite !Forall_cons, Forall_nil.
  destruct (reads_flare d).
  - split; [now left | reflexivity].
  - destruct (field_outside d temp_check), (field_outside d radius_check),
             (field_outside d mass_check), (field_outside d lum_check);
      (split; [intros H; first [float_clash H | tauto]
              | intros [? | (? & ? & ? & ? & _)]]);
      first [discriminate | vm_compute; reflexivity].
Qed.

Lemma zero_score_iff_witness :
  calculate_habitability_score extreme_record = Ok 0%float <->
  extreme_record !! "stellar_type" = Some (VStr "flare")
  \/ Forall (fun c => field_outside extreme_record c = true) checks.
Proof. apply zero_score_iff. vm_compute. reflexivity. Defined.

(** Integers against the fractional bounds of the source: the bound is
    taken apart into mantissa and exponent and the comparison becomes one
    of integers. *)
Ltac int_bound f :=
  let E := fresh "E" in
  unfold Cmp.num_lt;
  destruct (Prim2SF f) eqn:E; vm_compute in E; try discriminate E;
  injection E as <- <- <-;
  unfold Cmp.Z_lt_SF, Cmp.SF_lt_Z, Cmp.signed;
  match goal with
  | |- context [0 <=? ?e] =>
      let b := eval vm_compute in (0 <=? e) in change (0 <=? e) with b
  end;
  cbv iota;
  match goal with
  | |- context [2 ^ ?e] =>
      let p := eval vm_compute in (2 ^ e) in change (2 ^ e) with p
  end;
  repeat match goal with
         | |- context [?a <? ?b] => destruct (Z.ltb_spec a b)
         | |- context [?a <=? ?b] => destruct (Z.leb_spec a b)
         end;
  try reflexivity; exfalso; lia.

Lemma int_lt_half (z : Z) : Cmp.num_lt (NInt z) (NFloat 0.5) = (z <=? 0).
Proof. int_bound 0.5%float. Qed.

Lemma two_and_a_half_lt_int (z : Z) : Cmp.num_lt (NFloat 2.5) (NInt z) = (3 <=? z).
Proof. int_bound 2.5%float. Qed.

Lemma int_lt_tenth (z : Z) : Cmp.num_lt (NInt z) (NFloat 0.1) = (z <=? 0).
Proof. int_bound 0.1%float. Qed.

Lemma int_lt_int (a b : Z) : Cmp.num_lt (NInt a) (NInt b) = (a <? b).
Proof. reflexivity. Qed.

Lemma get_only_eq (k : string) (n : num) (dv : value) :
  get (only k n) k dv = VNum n.
Proof. unfold get, only. now rewrite lookup_singleton_eq. Qed.

Lemma get_only_ne (k k' : string) (n : num) (dv : value) :
  k <> k' -> get (only k n) k' dv = dv.
Proof. intros H. unfold get, only. now rewrite lookup_singleton_ne. Qed.

(** X8. Whole numbers are compared exactly, against the fractional bounds
    too: an integer temperature is penalised below 200 and above 400, an
    integer radius at 0 and below and at 3 and above, an integer mass or
    luminosity at 0 and below and above 10. *)
Theorem integer_fields (z : Z) :
  calculate_habitability_score (only "equilibrium_temperature" (NInt z))
  = Ok (if (z <? 200) || (400 <? z) then 30%float else 50%float)
  /\ calculate_habitability_score (only "radius" (NInt z))
     = Ok (if (z <=? 0) || (3 <=? z) then 35%float else 50%float)
  /\ calculate_habitability_score (only "mass" (NInt z))
     = Ok (if (z <=? 0) || (10 <? z) then 40%float else 50%float)
  /\ calculate_habitability_score (only "stellar_luminosity" (NInt z))
     = Ok (if (z <=? 0) || (10 <? z) then 45%float else 50%float).
Proof.
  repeat split; unfold calculate_habitability_score;
    rewrite ?get_only_eq, ?get_only_ne by discriminate;
    rewrite !py_or_num, ?int_lt_half, ?two_and_a_half_lt_int, ?int_lt_tenth, ?int_lt_int;
    repeat match goal with
           | |- context [?a <? ?b] => destruct (a <? b)
           | |- context [?a <=? ?b] => destruct (a <=? b)
           end;
    vm_compute; reflexivity.
Qed.

(** X9. Every multiple of five from [0.0] to [50.0] is the score of some
    record of the data model that names no stellar type: the eleven values
    are all attained, without the flare exit. *)
Theorem every_multiple_attained (k : Z) :
  0 <= k <= 10 ->
  exists d : gmap string value,
    well_typed d = true
    /\ d !! "stellar_type" = None
    /\ calculate_habitability_score d = Ok (float_of_int (5 * k)).
Proof.
  intros Hk.
  assert (Hcases : k = 0 \/ k = 1 \/ k = 2 \/ k = 3 \/ k = 4 \/ k = 5
                   \/ k = 6 \/ k = 7 \/ k = 8 \/ k = 9 \/ k = 10) by lia.
  destruct Hcases as [->|[->|[->|[->|[->|[->|[->|[->|[->|[->| ->]]]]]]]]]];
    [ exists (hot (giant (heavy (bright ∅))))
    | exists (hot (giant (heavy ∅)))
    | exists (hot (giant (bright ∅)))
    | exists (hot (giant ∅))
    | exists (hot (heavy ∅))
    | exists (hot (bright ∅))
    | exists (hot ∅)
    | exists (giant ∅)
    | exists (heavy ∅)
    | exists (bright ∅)
    | exists ∅ ];
    vm_compute; auto.
Qed.

Lemma every_multiple_attained_witness :
  exists d : gmap string value,
    well_typed d = true
    /\ d !! "stellar_type" = None
    /\ calculate_habitability_score d = Ok (float_of_int (5 * 7)).
Proof. apply every_multiple_attained. lia. Defined.

(** X10. The float subtractions lose nothing: on a record of the data model
    that is not a flare star, the score is the integer 50 minus the summed
    deductions of the failed checks, as a float. *)
Theorem score_exact (d : gmap string value) :
  well_typed d = true ->
  d !! "stellar_type" <> Some (VStr "flare") ->
  calculate_habitability_score d = Ok (float_of_int (50 - deductions d)).
Proof.
  intros Hwt Hnf. rewrite (evaluate_well_typed d Hwt).
  apply reads_flare_false in Hnf. rewrite Hnf.
  unfold deductions, checks. rewrite !filter_cons, filter_nil.
  destruct (field_outside d temp_check), (field_outside d radius_check),
           (field_outside d mass_check), (field_outside d lum_check);
    vm_compute; reflexivity.
Qed.

Lemma score_exact_witness :
  calculate_habitability_score (hot (bright ∅))
  = Ok (float_of_int (50 - deductions (hot (bright ∅)))).
Proof. apply score_exact; vm_compute; [reflexivity | discriminate]. Defined.

(** X11. Failing more never pays: of two records of the data model, the one
    that fails every check the other fails, and is a flare star if the other
    is, scores no higher. *)
Theorem more_failures_lower (d1 d2 : gmap string value) (v1 v2 : float) :
  well_typed d1 = true ->
  well_typed d2 = true ->
  (forall c, c ∈ checks -> field_outside d1 c = true -> field_outside d2 c = true) ->
  (d1 !! "stellar_type" = Some (VStr "flare") ->
   d2 !! "stellar_type" = Some (VStr "flare")) ->
  calculate_habitability_score d1 = Ok v1 ->
  calculate_habitability_score d2 = Ok v2 ->
  PrimFloat.leb v2 v1 = true.
Proof.
  intros Hwt1 Hwt2 Hc Hf.
  rewrite (evaluate_well_typed d1 Hwt1), (evaluate_well_typed d2 Hwt2).
  rewrite <- !flare_test in Hf. fold (reads_flare d1) (reads_flare d2) in Hf.
  assert (Ht := Hc temp_check ltac:(unfold checks; set_solver)).
  assert (Hr := Hc radius_check ltac:(unfold checks; set_solver)).
  assert (Hm := Hc mass_check ltac:(unfold checks; set_solver)).
  assert (Hl := Hc lum_check ltac:(unfold checks; set_solver)).
  clear Hc.
  destruct (reads_flare d1), (reads_flare d2);
    try (specialize (Hf eq_refl); discriminate Hf); clear Hf;
    destruct (field_outside d1 temp_check), (field_outside d2 temp_check);
    try (specialize (Ht eq_refl); discriminate Ht); clear Ht;
    destruct (field_outside d1 radius_check), (field_outside d2 radius_check);
    try (specialize (Hr eq_refl); discriminate Hr); clear Hr;
    destruct (field_outside d1 mass_check), (field_outside d2 mass_check);
    try (specialize (Hm eq_refl); discriminate Hm); clear Hm;
    destruct (field_outside d1 lum_check), (field_outside d2 lum_check);
    try (specialize (Hl eq_refl); discriminate Hl); clear Hl;
    intros [= <-] [= <-]; vm_compute; reflexivity.
Qed.

Lemma more_failures_lower_witness : PrimFloat.leb 10 30 = true.
Proof.
  apply (more_failures_lower (hot ∅) (hot (giant (bright ∅))) 30 10);
    try (vm_compute; reflexivity).
  - intros c. unfold checks. rewrite !elem_of_cons, elem_of_nil.
    intros [->|[->|[->|[->|[]]]]]; vm_compute; congruence.
  - vm_compute. discriminate.
Defined.
